(** * book-borrow-agent: the two lookup tools, the response dataclass and the
    turn loop they are registered with.

    Python [str] values are kept as Rocq [string]s holding their UTF-8 bytes;
    equality and concatenation of [str] agree with equality and concatenation
    of the encodings, which is all the tools use. *)

From Stdlib Require Import String Ascii List Bool Arith Lia.
From stdpp Require Import base option list gmap strings.
Import ListNotations.
Open Scope string_scope.
Set Warnings "-register-all".

(** ** Python values *)

Module Py.

(** The values the script builds: [None], [bool], [str], [list] and [dict]
    with [str] keys.  A dict literal keeps its insertion order, so it is an
    association list. *)
Inductive pyval : Type :=
| PyNone
| PyBool (b : bool)
| PyStr (s : string)
| PyList (l : list pyval)
| PyDict (d : list (string * pyval)).

Abbreviation pydict := (list (string * pyval)).

Inductive exc : Type :=
| KeyError (k : string)
| TypeError (msg : string).

(** Results of code that may raise. *)
Definition res (A : Type) : Type := exc + A.

Definition ret {A} (a : A) : res A := inr a.
Definition raise {A} (e : exc) : res A := inl e.
Definition bind {A B} (m : res A) (k : A -> res B) : res B :=
  match m with
  | inl e => inl e
  | inr a => k a
  end.

(** [d.get(k)] *)
Fixpoint get (d : pydict) (k : string) : option pyval :=
  match d with
  | [] => None
  | (k', v) :: d' => if String.eqb k' k then Some v else get d' k
  end.

(** [d[k]]: raises [KeyError] on a missing key. *)
Definition getitem (d : pydict) (k : string) : res pyval :=
  match get d k with
  | Some v => ret v
  | None => raise (KeyError k)
  end.

(** [v[k]] on an arbitrary value: only a dict can be subscripted by a
    string key. *)
Definition subscript (v : pyval) (k : string) : res pyval :=
  match v with
  | PyDict d => getitem d k
  | _ => raise (TypeError "not subscriptable by str")
  end.

(** Truth value of an object, as [if] tests it. *)
Definition truthy (v : pyval) : bool :=
  match v with
  | PyNone => false
  | PyBool b => b
  | PyStr s => negb (String.eqb s "")
  | PyList l => negb (Nat.eqb (length l) 0)
  | PyDict d => negb (Nat.eqb (length d) 0)
  end.

(** [[x for x in xs if cond(x)]] where [cond] may raise. *)
Fixpoint comprehension_if (cond : pyval -> res bool) (xs : list pyval)
  : res (list pyval) :=
  match xs with
  | [] => ret []
  | x :: xs' =>
      bind (cond x) (fun keep =>
      bind (comprehension_if cond xs') (fun rest =>
      ret (if keep then x :: rest else rest)))
  end.

(** [sep.join(parts)] *)
Fixpoint join (sep : string) (parts : list string) : string :=
  match parts with
  | [] => ""
  | [p] => p
  | p :: ps => p ++ sep ++ join sep ps
  end.

(** The one-character string of a line feed. *)
Definition LF : string := String (ascii_of_nat 10) EmptyString.

(** [s.split("\n")] restricted to what the proofs need: cut at every line
    feed. *)
Fixpoint split_lines_aux (cur : string) (s : string) : list string :=
  match s with
  | EmptyString => [cur]
  | String c s' =>
      if Ascii.eqb c (ascii_of_nat 10)
      then cur :: split_lines_aux "" s'
      else split_lines_aux (cur ++ String c EmptyString) s'
  end.

Definition split_lines (s : string) : list string := split_lines_aux "" s.

End Py.

Import Py.

(** ** 2. Context *)

Record Context : Type := mkContext { user_id : string }.

(** [ToolRuntime[C]]: the object the framework hands to a tool that asks for
    it.  The script reads only its [context] attribute; whatever else the
    object carries is kept abstract in [runtime_rest]. *)
Record ToolRuntime (C R : Type) : Type := mkToolRuntime {
  context : C;
  runtime_rest : R
}.
Arguments mkToolRuntime {C R}.
Arguments context {C R}.
Arguments runtime_rest {C R}.

(** ** 3. Tools *)

Definition mk_book (title author publisher publish_date description : string)
  (available : bool) : pyval :=
  PyDict [ ("title", PyStr title);
           ("author", PyStr author);
           ("publisher", PyStr publisher);
           ("publish_date", PyStr publish_date);
           ("description", PyStr description);
           ("available", PyBool available) ].

Definition book_psychology_and_life : pyval :=
  mk_book "心理学与生活" "理查德·格里格" "人民邮电出版社" "2016-01-01"
    "本书介绍了心理学的基本概念和理论，帮助读者理解人类行为和心理过程。" true.

Definition book_influence : pyval :=
  mk_book "影响力" "罗伯特·西奥迪尼" "中国人民大学出版社" "2010-01-01"
    "本书揭示了影响力的六大原则，帮助读者掌握说服他人的技巧。" true.

Definition book_thinking_fast_and_slow : pyval :=
  mk_book "思考，快与慢" "丹尼尔·卡尼曼" "中信出版社" "2012-01-01"
    "本书探讨了人类思维的两种模式，揭示了决策过程中的认知偏差。" false.

Definition book_willpower : pyval :=
  mk_book "自控力" "凯利·麦格尼格尔" "机械工业出版社" "2013-01-01"
    "本书提供了提升自控力的科学方法，帮助读者克服拖延和冲动。" true.

Definition book_flow : pyval :=
  mk_book "心流" "米哈里·契克森米哈赖" "浙江人民出版社" "2017-01-01"
    "本书探讨了心流状态的特征和实现方法，帮助读者提升专注力和幸福感。" true.

(** The local [books] of [get_book_list]. *)
Definition books : list pyval :=
  [ book_psychology_and_life; book_influence; book_thinking_fast_and_slow;
    book_willpower; book_flow ].

(** [book['available']] used as the filter of the comprehension. *)
Definition book_available (book : pyval) : res bool :=
  bind (subscript book "available") (fun v => ret (truthy v)).

(** [get_book_list()]: [{"books": [book for book in books if book['available']]}] *)
Definition get_book_list (_ : unit) : res pyval :=
  bind (comprehension_if book_available books) (fun kept =>
  ret (PyDict [("books", PyList kept)])).

(** The local [borrowed_books] of [get_book_list_by_userid], built in the
    order of the literal. *)
Definition borrowed_books : gmap string (list string) :=
  <["2" := ["思考，快与慢 - 丹尼尔·卡尼曼"]]>
    (<["1" := ["心理学与生活 - 理查德·格里格"; "影响力 - 罗伯特·西奥迪尼"]]> ∅).

Definition no_record : string := "该用户暂无借阅记录".

(** [get_book_list_by_userid(runtime)]:
    ["\n".join(borrowed_books.get(user_id, ["该用户暂无借阅记录"]))] *)
Definition get_book_list_by_userid {R} (runtime : ToolRuntime Context R)
  : string :=
  let user_id := user_id (context runtime) in
  join LF (default [no_record] (borrowed_books !! user_id)).

(** ** 5. Response format *)

(** A type annotation of a dataclass field: [str], [dict], or [T | None]. *)
Inductive annotation : Type :=
| AnnStr
| AnnDict
| AnnOrNone (a : annotation).

(** One field of a dataclass body: its name, its annotation and the default
    after [=], if there is one. *)
Record field_decl : Type := mkField {
  field_name : string;
  field_annotation : annotation;
  field_default : option pyval
}.

(** The body of [class ResponseFormat], in declaration order. *)
Definition ResponseFormat_fields : list field_decl :=
  [ mkField "encouragement_response" AnnStr None;
    mkField "book_info" (AnnOrNone AnnDict) (Some PyNone);
    mkField "reason" (AnnOrNone AnnStr) (Some PyNone) ].

(** Instances of [ResponseFormat], typed by the annotations. *)
Record ResponseFormat : Type := mkResponseFormat {
  encouragement_response : string;
  book_info : option pydict;
  reason : option string
}.

(** The [__init__] that [@dataclass] generates.  An argument that the call
    does not supply is [None] here; a field without default must be
    supplied, a field with default takes it when not supplied (both defaults
    are Python's [None], the inner [None] of the field). *)
Definition ResponseFormat_init
  (encouragement_response : option string)
  (book_info : option (option pydict))
  (reason : option (option string)) : res ResponseFormat :=
  match encouragement_response with
  | None =>
      raise (TypeError "missing 1 required positional argument: 'encouragement_response'")
  | Some er =>
      ret (mkResponseFormat er (default None book_info) (default None reason))
  end.

(** [dataclasses.asdict] on an instance. *)
Definition asdict (r : ResponseFormat) : pydict :=
  [ ("encouragement_response", PyStr (encouragement_response r));
    ("book_info", match book_info r with Some d => PyDict d | None => PyNone end);
    ("reason", match reason r with Some s => PyStr s | None => PyNone end) ].

(** *** The response schema read off the dataclass *)

(** Modelled from the spec: the types a schema field can declare, text or a
    structured value (the reading of a schema off the dataclass is the
    framework's and not in the script). *)
Inductive FieldType : Type := Text | Structured.

(** Modelled from the spec: the required/optional marker of a field. *)
Inductive Marker : Type := Required | Optional.

(** Modelled from the spec: one field of a ResponseSchema: name, type and
    marker. *)
Record SchemaField : Type := mkSchemaField {
  sf_name : string;
  sf_type : FieldType;
  sf_marker : Marker
}.

(** Modelled from the spec: [str] declares text and [dict] a structured
    value; [| None] does not change the type. *)
Fixpoint schema_type (a : annotation) : FieldType :=
  match a with
  | AnnStr => Text
  | AnnDict => Structured
  | AnnOrNone a' => schema_type a'
  end.

(** Modelled from the spec: a field is required exactly when its
    declaration has no default. *)
Definition schema_marker (f : field_decl) : Marker :=
  match field_default f with
  | None => Required
  | Some _ => Optional
  end.

(** Modelled from the spec: the schema field of a dataclass field. *)
Definition schema_field (f : field_decl) : SchemaField :=
  mkSchemaField (field_name f) (schema_type (field_annotation f)) (schema_marker f).

(** The schema that [response_format=ResponseFormat] declares. *)
Definition ResponseSchema : list SchemaField :=
  map schema_field ResponseFormat_fields.

(** Whether an annotation admits Python's [None]. *)
Definition admits_none (a : annotation) : bool :=
  match a with
  | AnnOrNone _ => true
  | _ => false
  end.

(** ** 7. The agent: registry, session store, validator and turn loop

    The script builds the agent with [create_agent] and runs one turn with
    [agent.invoke]; the loop itself is not part of the script.  It is
    modelled here from the specification of the orchestration core. *)

Module Core.

(** *** Messages *)

(** Modelled from the spec: the [role] enumeration of a Message (the
    orchestration core is not in the script). *)
Inductive Role : Type := user | assistant | tool.

(** Modelled from the spec: ToolInvocationRequest, [{id, tool_name,
    arguments}]. *)
Record ToolInvocationRequest : Type := mkRequest {
  id : string;
  tool_name : string;
  arguments : pydict
}.

(** Modelled from the spec: Message, [{role, content, tool_calls,
    tool_call_id}]. *)
Record Message : Type := mkMessage {
  role : Role;
  content : option string;
  tool_calls : list ToolInvocationRequest;
  tool_call_id : option string
}.

(** *** Tool registry *)

(** Modelled from the spec: what a handler gives back, [{success: result}]
    or [{error: description}]. *)
Inductive ToolResult : Type :=
| Success (result : pyval)
| ToolError (error_description : string).

(** Modelled from the spec: ToolDescriptor.  [needs_context] is the
    handler's declaration that it depends on the Context; the handler
    receives the arguments and the Context, or no Context. *)
Record ToolDescriptor : Type := mkTool {
  name : string;
  parameter_schema : list (string * annotation);
  needs_context : bool;
  handler : pydict -> option Context -> ToolResult;
  description : string
}.

(** Modelled from the spec: the description under which a handler's failure
    is captured as a tool-error result. *)
Definition exc_text (e : exc) : string :=
  match e with
  | KeyError k => "KeyError: " ++ k
  | TypeError m => "TypeError: " ++ m
  end.

(** [@tool def get_book_list() -> dict]: the name and the docstring of the
    function, no parameter, no runtime; a raised exception is captured. *)
Definition get_book_list_tool : ToolDescriptor :=
  {| name := "get_book_list";
     parameter_schema := [];
     needs_context := false;
     handler := fun _ _ =>
       match get_book_list tt with
       | inr v => Success v
       | inl e => ToolError (exc_text e)
       end;
     description := "获取可借阅的书籍列表" |}.

(** [@tool def get_book_list_by_userid(runtime: ToolRuntime[Context]) -> str]:
    no parameter for the model to fill; the [runtime] parameter is the
    declaration that the handler depends on the Context. *)
Definition get_book_list_by_userid_tool : ToolDescriptor :=
  {| name := "get_book_list_by_userid";
     parameter_schema := [];
     needs_context := true;
     handler := fun _ octx =>
       match octx with
       | Some c => Success (PyStr (get_book_list_by_userid (mkToolRuntime c tt)))
       | None => ToolError "no context supplied"
       end;
     description := "根据用户ID获取该用户的借阅书籍列表" |}.

(** [tools=[get_book_list, get_book_list_by_userid]] *)
Definition agent_tools : list ToolDescriptor :=
  [ get_book_list_tool; get_book_list_by_userid_tool ].

(** Modelled from the spec: the two errors of the Tool Registry. *)
Inductive RegistryError : Type :=
| DuplicateToolError (n : string)
| UnknownToolError (n : string).

(** Modelled from the spec: [register(descriptor)] of the Tool Registry. *)
Definition register (d : ToolDescriptor) (reg : gmap string ToolDescriptor)
  : RegistryError + gmap string ToolDescriptor :=
  match reg !! name d with
  | Some _ => inl (DuplicateToolError (name d))
  | None => inr (<[name d := d]> reg)
  end.

(** Modelled from the spec: [resolve(name)] of the Tool Registry. *)
Definition resolve (n : string) (reg : gmap string ToolDescriptor)
  : RegistryError + ToolDescriptor :=
  match reg !! n with
  | Some d => inr d
  | None => inl (UnknownToolError n)
  end.

(** Modelled from the spec: the registry built at startup, one [register]
    per tool in order. *)
Fixpoint register_all (ds : list ToolDescriptor) (reg : gmap string ToolDescriptor)
  : RegistryError + gmap string ToolDescriptor :=
  match ds with
  | [] => inr reg
  | d :: ds' =>
      match register d reg with
      | inl e => inl e
      | inr reg' => register_all ds' reg'
      end
  end.

(** Modelled from the spec: what the Context Binder hands to a handler: the
    caller's Context when the handler declares the dependency, nothing
    otherwise. *)
Definition context_for (d : ToolDescriptor) (ctx : Context) : option Context :=
  if needs_context d then Some ctx else None.

(** Modelled from the spec: one tool invocation as it happened: which tool,
    with which arguments, and the Context it was given. *)
Record Invocation : Type := mkInvocation {
  inv_tool : string;
  inv_arguments : pydict;
  inv_context : option Context
}.

(** Modelled from the spec: [invoke(name, arguments, context)] of the Tool
    Registry; an unknown tool or a failing handler is a tool-error result,
    never an exception.  The second component records the invocation. *)
Definition invoke (reg : gmap string ToolDescriptor) (n : string)
  (args : pydict) (ctx : Context) : ToolResult * Invocation :=
  match resolve n reg with
  | inr d =>
      (handler d args (context_for d ctx),
       mkInvocation n args (context_for d ctx))
  | inl _ =>
      (ToolError ("unknown tool: " ++ n), mkInvocation n args None)
  end.

(** *** Session store *)

(** Modelled from the spec: the [status] enumeration of a Session. *)
Inductive SessionStatus : Type := active | completed | failed.

(** Modelled from the spec: Session, [{id, messages, status}]. *)
Record Session : Type := mkSession {
  session_id : string;
  messages : list Message;
  status : SessionStatus
}.

(** Modelled from the spec: [load(session_id)] of the Session Store. *)
Definition load (sid : string) (st : gmap string Session) : Session :=
  default (mkSession sid [] active) (st !! sid).

(** Modelled from the spec: [append(session_id, message)]. *)
Definition append (sid : string) (m : Message) (st : gmap string Session)
  : gmap string Session :=
  let s := load sid st in
  <[sid := mkSession (session_id s) (messages s ++ [m]) (status s)]> st.

(** Modelled from the spec: [get_messages(session_id)]. *)
Definition get_messages (sid : string) (st : gmap string Session)
  : list Message :=
  messages (load sid st).

(** Modelled from the spec: checkpoint of the session's status. *)
Definition set_status (sid : string) (s' : SessionStatus)
  (st : gmap string Session) : gmap string Session :=
  let s := load sid st in
  <[sid := mkSession (session_id s) (messages s) s']> st.

(** *** Structured output validator *)

(** Modelled from the spec: what a SchemaViolation reports. *)
Inductive Violation : Type :=
| NotAMapping
| MissingRequired (field : string)
| WrongType (field : string).

(** Modelled from the spec: a value matches a declared type: text is a
    string, a structured value is a mapping. *)
Definition has_type (t : FieldType) (v : pyval) : bool :=
  match t, v with
  | Text, PyStr _ => true
  | Structured, PyDict _ => true
  | _, _ => false
  end.

(** Modelled from the spec: the check of one declared field: a required
    field is present, a present field has its declared type.  A null in an
    optional field counts as the field being absent. *)
Definition check_field (p : pydict) (f : SchemaField) : option Violation :=
  match get p (sf_name f), sf_marker f with
  | None, Required => Some (MissingRequired (sf_name f))
  | None, Optional => None
  | Some PyNone, Optional => None
  | Some v, _ =>
      if has_type (sf_type f) v then None else Some (WrongType (sf_name f))
  end.

(** Modelled from the spec: the checks of all declared fields, reporting
    the first violation. *)
Fixpoint check_fields (p : pydict) (schema : list SchemaField)
  : option Violation :=
  match schema with
  | [] => None
  | f :: schema' =>
      match check_field p f with
      | Some v => Some v
      | None => check_fields p schema'
      end
  end.

Definition as_text (v : option pyval) : option string :=
  match v with
  | Some (PyStr s) => Some s
  | _ => None
  end.

Definition as_structured (v : option pyval) : option pydict :=
  match v with
  | Some (PyDict d) => Some d
  | _ => None
  end.

(** Modelled from the spec: [validate(raw_payload, schema)] for the
    agent's [ResponseSchema]; on success the parsed response is the
    [ResponseFormat] built from the payload's fields. *)
Definition validate (payload : pyval) : Violation + ResponseFormat :=
  match payload with
  | PyDict p =>
      match check_fields p ResponseSchema with
      | Some v => inl v
      | None =>
          match ResponseFormat_init
                  (as_text (get p "encouragement_response"))
                  (Some (as_structured (get p "book_info")))
                  (Some (as_text (get p "reason"))) with
          | inr r => inr r
          | inl _ => inl (MissingRequired "encouragement_response")
          end
      end
  | _ => inl NotAMapping
  end.

(** Modelled from the spec: the violation description of a repair
    prompt. *)
Definition describe (v : Violation) : string :=
  match v with
  | NotAMapping => "payload is not a mapping"
  | MissingRequired f => "missing required field: " ++ f
  | WrongType f => "wrong type for field: " ++ f
  end.

(** Modelled from the spec: what it means for a mapping to conform to a
    schema: every required field is present with its type, and every
    present field has its type, a null standing for an absent optional
    field. *)
Definition conforms (schema : list SchemaField) (p : pydict) : Prop :=
  forall f, In f schema ->
    (sf_marker f = Required -> exists v, get p (sf_name f) = Some v
                                         /\ has_type (sf_type f) v = true)
    /\ (forall v, get p (sf_name f) = Some v ->
          has_type (sf_type f) v = true
          \/ (sf_marker f = Optional /\ v = PyNone)).

(** *** Model gateway *)

(** Modelled from the spec: ModelOutcome, a list of tool calls or a final
    payload. *)
Inductive ModelOutcome : Type :=
| ToolCallOutcome (requests : list ToolInvocationRequest)
| FinalOutcome (payload : pyval).

(** Modelled from the spec: the two ways a gateway call fails. *)
Inductive GatewayError : Type := TransientModelError | FatalModelError.

(** *** Turn loop *)

(** Modelled from the spec: the [status] of an invocation's result. *)
Inductive TurnStatus : Type := DONE | FAILED.

(** Modelled from the spec: the error kinds a failed turn reports. *)
Inductive ErrorKind : Type := ModelUnavailable | FatalModel | SchemaViolation.

(** Modelled from the spec: the value [invoke] returns to the caller,
    [{status, structured_response, error}]. *)
Record InvokeResult : Type := mkResult {
  turn_status : TurnStatus;
  structured_response : option ResponseFormat;
  error : option ErrorKind
}.

(** Modelled from the spec: the repair-attempt limit of schema
    validation. *)
Definition REPAIR_LIMIT : nat := 2.

(** Modelled from the spec: the state a turn threads through its steps: the
    session store, the number of gateway calls and of repair attempts made
    so far, and the tool invocations made so far. *)
Record TurnState : Type := mkState {
  store : gmap string Session;
  calls : nat;
  repairs : nat;
  log : list Invocation
}.

Definition with_store (f : gmap string Session -> gmap string Session)
  (st : TurnState) : TurnState :=
  mkState (f (store st)) (calls st) (repairs st) (log st).

(** Modelled from the spec: the [tool] message that answers a request: the
    result or the captured error as text, under the request's id. *)
Definition tool_message (req : ToolInvocationRequest) (r : ToolResult)
  (render : pyval -> string) : Message :=
  mkMessage tool
    (Some (match r with
           | Success v => render v
           | ToolError d => d
           end))
    [] (Some (id req)).

Section Turn.

(** The model behind the gateway: its reply to the [n]-th call of the
    turn on the given message history.  The tool descriptors and the
    schema of the request are fixed for the agent. *)
Variable gateway : nat -> list Message -> GatewayError + ModelOutcome.
Variable registry : gmap string ToolDescriptor.
(** How a structured value is written as message text. *)
Variable render : pyval -> string.
(** How many times a transient gateway failure is retried. *)
Variable model_retry_limit : nat.

(** Modelled from the spec: TOOL_DISPATCH of one request: invoke the
    registry with the turn's Context and append the [tool] message. *)
Definition dispatch_one (sid : string) (ctx : Context)
  (st : TurnState) (req : ToolInvocationRequest) : TurnState :=
  let '(r, inv) := invoke registry (tool_name req) (arguments req) ctx in
  mkState (append sid (tool_message req r render) (store st))
          (calls st) (repairs st) (log st ++ [inv]).

(** Modelled from the spec: TOOL_DISPATCH, in the order requested. *)
Definition dispatch (sid : string) (ctx : Context)
  (reqs : list ToolInvocationRequest) (st : TurnState) : TurnState :=
  fold_left (dispatch_one sid ctx) reqs st.

(** Modelled from the spec: where a step of the loop leaves the turn: at a
    terminal state with the result for the caller, or back at MODEL_CALL
    with what is left of the retry and repair budgets. *)
Inductive Next : Type :=
| Stop (r : InvokeResult) (st : TurnState)
| Continue (retries_left repairs_left : nat) (st : TurnState).

(** Modelled from the spec: a terminal state: the session is marked and
    the result goes to the caller. *)
Definition finish (sid : string) (r : InvokeResult) (s : SessionStatus)
  (st : TurnState) : Next :=
  Stop r (with_store (set_status sid s) st).

(** Modelled from the spec: one MODEL_CALL with what follows it:
    TOOL_DISPATCH on a tool-call outcome, VALIDATING and REPAIR on a
    final payload, retry or failure on a gateway error.
    [retries_left] are the retries left for a transient failure of this
    call, [repairs_left] the repair attempts left in the turn. *)
Definition model_step (sid : string) (ctx : Context)
  (retries_left repairs_left : nat) (st : TurnState) : Next :=
  let st1 := mkState (store st) (S (calls st)) (repairs st) (log st) in
  match gateway (calls st) (get_messages sid (store st)) with
  | inl TransientModelError =>
      match retries_left with
      | S k => Continue k repairs_left st1
      | 0 => finish sid (mkResult FAILED None (Some ModelUnavailable))
               failed st1
      end
  | inl FatalModelError =>
      finish sid (mkResult FAILED None (Some FatalModel)) failed st1
  | inr (ToolCallOutcome reqs) =>
      let st2 :=
        with_store (append sid (mkMessage assistant None reqs None)) st1 in
      Continue model_retry_limit repairs_left (dispatch sid ctx reqs st2)
  | inr (FinalOutcome payload) =>
      let st2 :=
        with_store
          (append sid (mkMessage assistant (Some (render payload)) [] None))
          st1 in
      match validate payload with
      | inr parsed =>
          finish sid (mkResult DONE (Some parsed) None) completed st2
      | inl v =>
          match repairs_left with
          | S k =>
              Continue model_retry_limit k
                (mkState
                   (append sid (mkMessage user (Some (describe v)) [] None)
                      (store st2))
                   (calls st2) (S (repairs st2)) (log st2))
          | 0 =>
              finish sid (mkResult FAILED None (Some SchemaViolation))
                failed st2
          end
      end
  end.

(** Modelled from the spec: the loop over [model_step] until a terminal
    state; [fuel] bounds the number of gateway calls. *)
Fixpoint model_call (fuel : nat) (sid : string) (ctx : Context)
  (retries_left repairs_left : nat) (st : TurnState)
  : option (InvokeResult * TurnState) :=
  match fuel with
  | 0 => None
  | S fuel' =>
      match model_step sid ctx retries_left repairs_left st with
      | Stop r st' => Some (r, st')
      | Continue retries_left' repairs_left' st' =>
          model_call fuel' sid ctx retries_left' repairs_left' st'
      end
  end.

(** Modelled from the spec: LOADING: the session is loaded or created,
    its status goes back to [active] unless it had failed, and the user
    message is appended. *)
Definition loading (user_input : string) (sid : string)
  (st0 : gmap string Session) : TurnState :=
  let s := load sid st0 in
  let s' := match status s with failed => failed | _ => active end in
  mkState
    (append sid (mkMessage user (Some user_input) [] None)
       (set_status sid s' st0))
    0 0 [].

(** Modelled from the spec: the invocation entry point
    [invoke(user_input, session_id, context)], on a store [st0]. *)
Definition invoke_agent (fuel : nat) (user_input : string) (sid : string)
  (ctx : Context) (st0 : gmap string Session)
  : option (InvokeResult * TurnState) :=
  model_call fuel sid ctx model_retry_limit REPAIR_LIMIT
    (loading user_input sid st0).

End Turn.

(** Modelled from the spec: the registry of the agent, the two tools of the
    script registered in the order of [tools=[...]]. *)
Definition agent_registry : gmap string ToolDescriptor :=
  match register_all agent_tools ∅ with
  | inr reg => reg
  | inl _ => ∅
  end.

(** The registry with every handler already applied to the Context [c]:
    its handlers ignore the Context they are invoked with. *)
Definition bind_context (c : Context) (reg : gmap string ToolDescriptor)
  : gmap string ToolDescriptor :=
  (fun d => mkTool (name d) (parameter_schema d) (needs_context d)
              (fun args _ => handler d args (context_for d c))
              (description d)) <$> reg.


(** Modelled from the spec: the invocation entry point under the
    repair-attempt limit of the configuration surface: [Some n] when [n] is
    configured, [None] when none is.  A repair is attempted if attempts
    remain; with no limit they always do, and a turn of [fuel] model calls
    cannot ask for more than [fuel] of them. *)
Definition invoke_configured
  (gateway : nat -> list Message -> GatewayError + ModelOutcome)
  (registry : gmap string ToolDescriptor) (render : pyval -> string)
  (model_retry_limit : nat) (limit : option nat)
  (fuel : nat) (user_input : string) (sid : string) (ctx : Context)
  (st0 : gmap string Session) : option (InvokeResult * TurnState) :=
  model_call gateway registry render model_retry_limit fuel sid ctx
    model_retry_limit (default fuel limit) (loading user_input sid st0).


(** A recommended book names a borrowed title of the user: its [title] is a
    line of the user's borrowed list, either as it stands or followed by
    " - " and an author. *)
Definition names_borrowed (uid : string) (d : pydict) : Prop :=
  exists t line,
    get d "title" = Some (PyStr t)
    /\ In line (default [] (borrowed_books !! uid))
    /\ (line = t \/ exists a, line = t ++ " - " ++ a).

End Core.

(** ** Stub models used to run concrete turns *)

Module Stub.
Import Core.

(** Message text of a value: a string as it is, anything else by a tag. *)
Definition render (v : pyval) : string :=
  match v with
  | PyStr s => s
  | PyNone => "null"
  | PyBool true => "true"
  | PyBool false => "false"
  | PyList _ => "[...]"
  | PyDict _ => "{...}"
  end.

Definition ask_borrowed : ToolInvocationRequest :=
  mkRequest "call_1" "get_book_list_by_userid" [].

Definition ask_available : ToolInvocationRequest :=
  mkRequest "call_2" "get_book_list" [].

(** A model that first asks for both tools and then answers with
    [payload]. *)
Definition tools_then (payload : pyval) (n : nat) (_ : list Message)
  : GatewayError + ModelOutcome :=
  match n with
  | 0 => inr (ToolCallOutcome [ask_borrowed; ask_available])
  | _ => inr (FinalOutcome payload)
  end.

(** A final payload that recommends a book under the given title. *)
Definition recommend (title : string) : pyval :=
  PyDict [ ("encouragement_response", PyStr "继续保持阅读的好习惯！");
           ("book_info", PyDict [("title", PyStr title)]);
           ("reason", PyStr "与您读过的书相辅相成。") ].




End Stub.

(** * Properties of the tools *)

Lemma book_available_kept b :
  In b [book_psychology_and_life; book_influence; book_willpower; book_flow] ->
  book_available b = inr true.
Proof.
  simpl. intros [<- | [<- | [<- | [<- | []]]]]; reflexivity.
Qed.

Lemma get_book_list_value u :
  get_book_list u
  = inr (PyDict [("books",
           PyList [book_psychology_and_life; book_influence;
                   book_willpower; book_flow])]).
Proof. destruct u. reflexivity. Qed.

(** C1. Every call of [get_book_list] returns [{"books": kept}] where [kept]
    holds exactly the catalog entries whose [available] flag is true: four
    of the five books, in catalog order and as they stand in the catalog;
    the one entry left out is 《思考，快与慢》. *)
Theorem get_book_list_available_only (u : unit) :
  exists kept,
    get_book_list u = inr (PyDict [("books", PyList kept)])
    /\ kept = [book_psychology_and_life; book_influence;
               book_willpower; book_flow]
    /\ length books = 5 /\ length kept = 4
    /\ (forall b, In b kept <-> In b books /\ book_available b = inr true)
    /\ (forall b, In b books -> ~ In b kept ->
          b = book_thinking_fast_and_slow
          /\ subscript b "title" = inr (PyStr "思考，快与慢")
          /\ subscript b "available" = inr (PyBool false)).
Proof.
  eexists. split; [apply get_book_list_value|].
  split; [reflexivity|]. split; [reflexivity|]. split; [reflexivity|].
  split.
  - intros b. split.
    + intros Hb. split; [|apply book_available_kept; exact Hb].
      simpl in Hb |- *. tauto.
    + intros [Hb Hav]. simpl in Hb |- *.
      destruct Hb as [<- | [<- | [<- | [<- | [<- | []]]]]]; auto.
      discriminate Hav.
  - intros b Hb Hn. simpl in Hb, Hn.
    destruct Hb as [<- | [<- | [<- | [<- | [<- | []]]]]];
      try (exfalso; tauto).
    repeat split.
Qed.

Lemma borrowed_books_1 :
  borrowed_books !! "1"
  = Some ["心理学与生活 - 理查德·格里格"; "影响力 - 罗伯特·西奥迪尼"].
Proof.
  unfold borrowed_books.
  rewrite lookup_insert_ne by discriminate.
  apply lookup_insert_eq.
Qed.

Lemma borrowed_books_other (uid : string) :
  uid <> "1" -> uid <> "2" -> borrowed_books !! uid = None.
Proof.
  intros H1 H2. unfold borrowed_books.
  rewrite lookup_insert_ne by congruence.
  rewrite lookup_insert_ne by congruence.
  apply lookup_empty.
Qed.

(** C2. For a caller context with [user_id] "1", [get_book_list_by_userid]
    returns the two titles 心理学与生活 - 理查德·格里格 and
    影响力 - 罗伯特·西奥迪尼 joined by a line feed, in that order: the text
    has exactly these two lines. *)
Theorem get_book_list_by_userid_user_1 (R : Type) (rest : R) :
  let text := get_book_list_by_userid (mkToolRuntime (mkContext "1") rest) in
  text = "心理学与生活 - 理查德·格里格" ++ LF ++ "影响力 - 罗伯特·西奥迪尼"
  /\ text = join LF ["心理学与生活 - 理查德·格里格"; "影响力 - 罗伯特·西奥迪尼"]
  /\ split_lines text
     = ["心理学与生活 - 理查德·格里格"; "影响力 - 罗伯特·西奥迪尼"].
Proof.
  cbv zeta. unfold get_book_list_by_userid. cbn [context user_id].
  rewrite borrowed_books_1. cbn [default].
  repeat split; reflexivity.
Qed.

(** C9. For every [user_id] other than "1" and "2", [get_book_list_by_userid]
    returns the single fallback line 该用户暂无借阅记录; it returns a text
    for every [user_id]. *)
Theorem get_book_list_by_userid_fallback (R : Type)
  (runtime : ToolRuntime Context R) :
  user_id (context runtime) <> "1" ->
  user_id (context runtime) <> "2" ->
  get_book_list_by_userid runtime = "该用户暂无借阅记录"
  /\ split_lines (get_book_list_by_userid runtime) = ["该用户暂无借阅记录"].
Proof.
  intros H1 H2. unfold get_book_list_by_userid.
  rewrite (borrowed_books_other _ H1 H2). cbn [default].
  split; reflexivity.
Qed.

Lemma get_book_list_by_userid_fallback_witness :
  get_book_list_by_userid (mkToolRuntime (mkContext "3") tt)
  = "该用户暂无借阅记录"
  /\ split_lines (get_book_list_by_userid (mkToolRuntime (mkContext "3") tt))
     = ["该用户暂无借阅记录"].
Proof.
  apply (get_book_list_by_userid_fallback unit (mkToolRuntime (mkContext "3") tt));
    simpl; discriminate.
Defined.

(** C7. Both tools are deterministic: two calls of [get_book_list] return
    the same value, and two calls of [get_book_list_by_userid] whose runtimes
    carry the same context return the same text, whatever else the two
    runtimes carry; so do the two registered handlers on identical arguments
    and context. *)
Theorem tools_deterministic :
  (forall u1 u2 : unit, get_book_list u1 = get_book_list u2)
  /\ (forall (R1 R2 : Type) (r1 : ToolRuntime Context R1)
        (r2 : ToolRuntime Context R2),
        context r1 = context r2 ->
        get_book_list_by_userid r1 = get_book_list_by_userid r2)
  /\ (forall d, In d Core.agent_tools ->
        forall args1 args2 c1 c2, args1 = args2 -> c1 = c2 ->
        Core.handler d args1 c1 = Core.handler d args2 c2).
Proof.
  split; [|split].
  - intros u1 u2. rewrite !get_book_list_value. reflexivity.
  - intros R1 R2 r1 r2 Hc. unfold get_book_list_by_userid.
    rewrite Hc. reflexivity.
  - intros d _ args1 args2 c1 c2 -> ->. reflexivity.
Qed.

Lemma tools_deterministic_witness :
  get_book_list tt = get_book_list tt
  /\ get_book_list_by_userid (mkToolRuntime (mkContext "1") 0)
     = get_book_list_by_userid (mkToolRuntime (mkContext "1") true)
  /\ Core.handler Core.get_book_list_by_userid_tool [] (Some (mkContext "2"))
     = Core.handler Core.get_book_list_by_userid_tool [] (Some (mkContext "2")).
Proof.
  destruct tools_deterministic as [H1 [H2 H3]].
  split; [apply H1|]. split.
  - apply H2. reflexivity.
  - apply H3; [simpl; auto | reflexivity | reflexivity].
Defined.

(** * Properties of the response format *)

Lemma In_ResponseSchema f :
  In f ResponseSchema <->
    f = mkSchemaField "encouragement_response" Text Required
    \/ f = mkSchemaField "book_info" Structured Optional
    \/ f = mkSchemaField "reason" Text Optional.
Proof.
  simpl. split.
  - intros [<- | [<- | [<- | []]]]; auto.
  - intros [-> | [-> | ->]]; auto.
Qed.

(** C4. The declared response schema has exactly three fields:
    [encouragement_response], required text; [book_info], an optional
    structured value; [reason], optional text.  No other field belongs to
    it, no name occurs twice, and the optional fields are the ones whose
    annotation admits [None]. *)
Theorem response_schema_fields :
  ResponseSchema
  = [ mkSchemaField "encouragement_response" Text Required;
      mkSchemaField "book_info" Structured Optional;
      mkSchemaField "reason" Text Optional ]
  /\ length ResponseSchema = 3
  /\ (forall f, In f ResponseSchema <->
        f = mkSchemaField "encouragement_response" Text Required
        \/ f = mkSchemaField "book_info" Structured Optional
        \/ f = mkSchemaField "reason" Text Optional)
  /\ NoDup (map sf_name ResponseSchema)
  /\ (forall d, In d ResponseFormat_fields ->
        (schema_marker d = Optional <-> admits_none (field_annotation d) = true)).
Proof.
  split; [reflexivity|]. split; [reflexivity|]. split; [|split].
  - apply In_ResponseSchema.
  - apply (bool_decide_unpack _). vm_compute. reflexivity.
  - intros d. simpl. intros [<- | [<- | [<- | []]]]; simpl;
      split; intros H; (reflexivity || discriminate H).
Qed.

(** C10. A [ResponseFormat] can be built from [encouragement_response]
    alone, [book_info] and [reason] then being [None]; without
    [encouragement_response] the construction raises.  Every instance
    carries an [encouragement_response] text, while [book_info] and [reason]
    are each, independently of the other, either [None] or a value. *)
Theorem response_format_defaults :
  (forall er,
     ResponseFormat_init (Some er) None None
     = inr (mkResponseFormat er None None))
  /\ (forall er bi, ResponseFormat_init (Some er) (Some bi) None
                    = inr (mkResponseFormat er bi None))
  /\ (forall er rs, ResponseFormat_init (Some er) None (Some rs)
                    = inr (mkResponseFormat er None rs))
  /\ (forall er bi rs, ResponseFormat_init (Some er) (Some bi) (Some rs)
                       = inr (mkResponseFormat er bi rs))
  /\ (forall bi rs, exists e, ResponseFormat_init None bi rs = inl e)
  /\ (forall r : ResponseFormat,
        get (asdict r) "encouragement_response"
        = Some (PyStr (encouragement_response r)))
  /\ (forall (bi : option pydict) (rs : option string),
        exists r, book_info r = bi /\ reason r = rs
                  /\ ResponseFormat_init (Some (encouragement_response r))
                       (Some bi) (Some rs) = inr r).
Proof.
  repeat split; try reflexivity.
  - intros bi rs. eexists. reflexivity.
  - intros bi rs. exists (mkResponseFormat "" bi rs). repeat split.
Qed.

(** * Properties of the validator *)

Import Core.

Lemma check_field_sound p f :
  check_field p f = None ->
  (sf_marker f = Required ->
     exists v, get p (sf_name f) = Some v /\ has_type (sf_type f) v = true)
  /\ (forall v, get p (sf_name f) = Some v ->
        has_type (sf_type f) v = true \/ (sf_marker f = Optional /\ v = PyNone)).
Proof.
  unfold check_field. intros H.
  destruct (get p (sf_name f)) as [v|] eqn:G.
  - assert (Hv : has_type (sf_type f) v = true
                 \/ (sf_marker f = Optional /\ v = PyNone)).
    { destruct v, (sf_marker f); auto;
        destruct (has_type (sf_type f) _); auto; discriminate H. }
    split.
    + intros Hr. exists v. split; [reflexivity|].
      destruct Hv as [Hv | [Hm _]]; [exact Hv | congruence].
    + intros v' [= <-]. exact Hv.
  - split.
    + intros Hr. rewrite Hr in H. discriminate H.
    + intros v [=].
Qed.

Lemma check_fields_sound p schema :
  check_fields p schema = None -> conforms schema p.
Proof.
  induction schema as [|f schema IH]; intros H g Hg; [destruct Hg|].
  simpl in H. destruct (check_field p f) eqn:C; [discriminate H|].
  destruct Hg as [<- | Hg].
  - apply check_field_sound, C.
  - apply IH; assumption.
Qed.

(** A payload that validates is a mapping that conforms to the schema, and
    the parsed response holds the payload's three fields. *)
Lemma validate_inr payload r :
  validate payload = inr r ->
  exists p, payload = PyDict p
    /\ conforms ResponseSchema p
    /\ get p "encouragement_response" = Some (PyStr (encouragement_response r))
    /\ book_info r = as_structured (get p "book_info")
    /\ reason r = as_text (get p "reason").
Proof.
  unfold validate. destruct payload as [| | | |p]; try discriminate.
  destruct (check_fields p ResponseSchema) eqn:C; [discriminate|].
  intros H. exists p. split; [reflexivity|].
  split; [apply check_fields_sound, C|].
  destruct (get p "encouragement_response") as [[| | s | |]|]; try discriminate H.
  simpl in H. injection H as <-. repeat split.
Qed.


Lemma conforms_asdict r : conforms ResponseSchema (asdict r).
Proof.
  intros f Hf. apply In_ResponseSchema in Hf.
  destruct r as [er bi rs].
  destruct Hf as [-> | [-> | ->]]; cbn; (split; [intros Hr | intros v [= <-]]);
    try discriminate Hr; eauto;
    try (destruct bi; cbn; auto); try (destruct rs; cbn; auto).
Qed.

(** * Properties of the turn loop *)

Section TurnFacts.

Variable gateway : nat -> list Message -> GatewayError + ModelOutcome.
Variable registry : gmap string ToolDescriptor.
Variable render : pyval -> string.
Variable model_retry_limit : nat.

Local Abbreviation step := (model_step gateway registry render model_retry_limit).
Local Abbreviation loop := (model_call gateway registry render model_retry_limit).
Local Abbreviation run := (invoke_agent gateway registry render model_retry_limit).

(** Case analysis on what the gateway answered in a step. *)
Ltac step_cases H G V retries repairs :=
  let reqs := fresh "reqs" in
  let payload := fresh "payload" in
  unfold model_step, finish in H;
  lazymatch type of H with
  | context [gateway ?n ?m] =>
      destruct (gateway n m) as [[|]|[reqs|payload]] eqn:G;
      [ destruct retries
      |
      |
      | destruct (validate payload) eqn:V;
        [ destruct repairs | ] ]
  end.


(** A step that stops hands back either a validated response of the model
    or an error kind and no response. *)
Lemma model_step_stop sid ctx retries_left repairs_left st res st' :
  step sid ctx retries_left repairs_left st = Stop res st' ->
  (exists r payload,
      res = mkResult DONE (Some r) None
      /\ gateway (calls st) (get_messages sid (store st))
         = inr (FinalOutcome payload)
      /\ validate payload = inr r)
  \/ (exists k, res = mkResult FAILED None (Some k)).
Proof.
  intros H. step_cases H G V retries_left repairs_left; try discriminate H;
    injection H as <- <-; [right; eauto .. | left; eauto 10].
Qed.

Lemma model_call_result fuel sid ctx retries_left repairs_left st res st' :
  loop fuel sid ctx retries_left repairs_left st = Some (res, st') ->
  (exists r payload n msgs,
      res = mkResult DONE (Some r) None
      /\ gateway n msgs = inr (FinalOutcome payload)
      /\ validate payload = inr r)
  \/ (exists k, res = mkResult FAILED None (Some k)).
Proof.
  revert retries_left repairs_left st.
  induction fuel as [|fuel IH]; intros retries_left repairs_left st H;
    [discriminate H|].
  cbn [model_call] in H.
  destruct (step sid ctx retries_left repairs_left st) as [r s|a b s] eqn:S.
  - injection H as <- <-.
    destruct (model_step_stop _ _ _ _ _ _ _ S) as [(r0 & p & -> & G & V)|[k ->]];
      [left | right]; eauto 8.
  - eapply IH, H.
Qed.





(** *** Turns without a repair-attempt limit *)




(** *** Repair prompts in the session *)








(** *** The response of a turn is the model's last answer *)

Lemma model_step_stop_last sid ctx retries_left repairs_left st res st' r :
  step sid ctx retries_left repairs_left st = Stop res st' ->
  structured_response res = Some r ->
  exists payload,
    gateway (calls st) (get_messages sid (store st))
    = inr (FinalOutcome payload)
    /\ validate payload = inr r
    /\ calls st' = S (calls st).
Proof.
  intros H Hr. step_cases H G V retries_left repairs_left; simplify_eq;
    cbn in Hr; try discriminate Hr.
  injection Hr as ->. eexists. repeat split. exact V.
Qed.

Lemma model_call_last fuel sid ctx retries_left repairs_left st res st' r :
  loop fuel sid ctx retries_left repairs_left st = Some (res, st') ->
  structured_response res = Some r ->
  exists payload msgs,
    gateway (pred (calls st')) msgs = inr (FinalOutcome payload)
    /\ validate payload = inr r.
Proof.
  revert retries_left repairs_left st.
  induction fuel as [|fuel IH]; intros retries_left repairs_left st H Hr;
    [discriminate H|].
  cbn [model_call] in H.
  destruct (step sid ctx retries_left repairs_left st) as [r0 s|a b s] eqn:S.
  - injection H as <- <-.
    destruct (model_step_stop_last _ _ _ _ _ _ _ _ S Hr) as (p & G & V & C).
    rewrite C. cbn [pred]. eauto.
  - eapply IH; eassumption.
Qed.

(** *** The Context reaches the handlers, and only them *)

Lemma invoke_log n args ctx :
  inv_tool (snd (invoke registry n args ctx)) = n
  /\ inv_context (snd (invoke registry n args ctx))
     = match registry !! n with
       | Some d => context_for d ctx
       | None => None
       end.
Proof.
  unfold invoke, resolve. destruct (registry !! n); split; reflexivity.
Qed.

Local Abbreviation delivered ctx :=
  (Forall (fun inv =>
     inv_context inv = match registry !! inv_tool inv with
                       | Some d => context_for d ctx
                       | None => None
                       end)).

Lemma dispatch_log sid ctx reqs st :
  delivered ctx (log st) ->
  delivered ctx (log (dispatch registry render sid ctx reqs st)).
Proof.
  unfold dispatch. revert st.
  induction reqs as [|req reqs IH]; intros st H; [exact H|].
  cbn [fold_left]. apply IH. unfold dispatch_one.
  pose proof (invoke_log (tool_name req) (arguments req) ctx) as [T C].
  destruct (invoke registry (tool_name req) (arguments req) ctx) as [r inv].
  cbn in T, C |- *. apply Forall_app. split; [exact H|].
  constructor; [|constructor]. rewrite T. exact C.
Qed.

Lemma model_step_log sid ctx retries_left repairs_left st :
  delivered ctx (log st) ->
  match step sid ctx retries_left repairs_left st with
  | Stop _ st' => delivered ctx (log st')
  | Continue _ _ st' => delivered ctx (log st')
  end.
Proof.
  intros D.
  destruct (step sid ctx retries_left repairs_left st) as [r s|a b s] eqn:H;
    step_cases H G V retries_left repairs_left; simplify_eq; cbn;
    try exact D.
  apply dispatch_log. exact D.
Qed.

Lemma model_call_log fuel sid ctx retries_left repairs_left st res st' :
  delivered ctx (log st) ->
  loop fuel sid ctx retries_left repairs_left st = Some (res, st') ->
  delivered ctx (log st').
Proof.
  revert retries_left repairs_left st.
  induction fuel as [|fuel IH]; intros retries_left repairs_left st D H;
    [discriminate H|].
  cbn [model_call] in H.
  pose proof (model_step_log sid ctx retries_left repairs_left st D) as L.
  destruct (step sid ctx retries_left repairs_left st) as [r s|a b s].
  - injection H as <- <-. exact L.
  - eapply IH; eassumption.
Qed.

(** Two turn states that agree on everything the model and the caller can
    see: the store and the two counters. *)
Local Abbreviation same st1 st2 :=
  (store st1 = store st2 /\ calls st1 = calls st2 /\ repairs st1 = repairs st2).

Local Abbreviation bound c := (bind_context c registry).

Lemma invoke_bind_context c c' n args :
  fst (invoke (bound c) n args c') = fst (invoke registry n args c).
Proof.
  unfold invoke, resolve, bind_context. rewrite lookup_fmap.
  destruct (registry !! n); reflexivity.
Qed.

Lemma dispatch_bind_context sid c c' reqs st1 st2 :
  same st1 st2 ->
  same (dispatch (bound c) render sid c' reqs st1)
       (dispatch registry render sid c reqs st2).
Proof.
  unfold dispatch. revert st1 st2.
  induction reqs as [|req reqs IH]; intros st1 st2 H; [exact H|].
  cbn [fold_left]. apply IH. unfold dispatch_one.
  pose proof (invoke_bind_context c c' (tool_name req) (arguments req)) as E.
  destruct (invoke (bound c) (tool_name req) (arguments req) c') as [r1 i1].
  destruct (invoke registry (tool_name req) (arguments req) c) as [r2 i2].
  cbn in E |- *. destruct H as (-> & -> & ->). subst r1. repeat split.
Qed.

Lemma model_step_bind_context sid c c' retries_left repairs_left st1 st2 :
  same st1 st2 ->
  match model_step gateway (bound c) render model_retry_limit
          sid c' retries_left repairs_left st1,
        step sid c retries_left repairs_left st2 with
  | Stop r1 s1, Stop r2 s2 => r1 = r2 /\ same s1 s2
  | Continue a1 b1 s1, Continue a2 b2 s2 => a1 = a2 /\ b1 = b2 /\ same s1 s2
  | _, _ => False
  end.
Proof.
  intros (Hs & Hc & Hr). unfold model_step, finish.
  rewrite Hs, Hc.
  destruct (gateway (calls st2) (get_messages sid (store st2)))
    as [[|]|[reqs|payload]].
  - destruct retries_left; cbn; rewrite ?Hs, ?Hc, ?Hr; repeat split.
  - cbn. rewrite ?Hs, ?Hc, ?Hr. repeat split.
  - split; [reflexivity|]. split; [reflexivity|].
    apply dispatch_bind_context. cbn. rewrite ?Hs, ?Hc, ?Hr. repeat split.
  - destruct (validate payload); [destruct repairs_left|];
      cbn; rewrite ?Hs, ?Hc, ?Hr; repeat split.
Qed.

Lemma model_call_bind_context fuel sid c c' retries_left repairs_left st1 st2 :
  same st1 st2 ->
  match model_call gateway (bound c) render model_retry_limit
          fuel sid c' retries_left repairs_left st1,
        loop fuel sid c retries_left repairs_left st2 with
  | Some (r1, s1), Some (r2, s2) => r1 = r2 /\ same s1 s2
  | None, None => True
  | _, _ => False
  end.
Proof.
  revert retries_left repairs_left st1 st2.
  induction fuel as [|fuel IH]; intros retries_left repairs_left st1 st2 H;
    [exact I|].
  cbn [model_call].
  pose proof (model_step_bind_context sid c c' retries_left repairs_left
                st1 st2 H) as S.
  destruct (model_step gateway (bound c) render model_retry_limit
              sid c' retries_left repairs_left st1) as [r1 s1|a1 b1 s1];
    destruct (step sid c retries_left repairs_left st2) as [r2 s2|a2 b2 s2];
    try contradiction.
  - exact S.
  - destruct S as (-> & -> & S). apply IH, S.
Qed.

End TurnFacts.

Lemma agent_registry_lookup :
  agent_registry !! "get_book_list" = Some get_book_list_tool
  /\ agent_registry !! "get_book_list_by_userid"
     = Some get_book_list_by_userid_tool.
Proof.
  unfold agent_registry, agent_tools, register_all, register. cbn [name].
  rewrite lookup_empty.
  rewrite lookup_insert_ne by discriminate. rewrite lookup_empty.
  split.
  - rewrite lookup_insert_ne by discriminate. apply lookup_insert_eq.
  - apply lookup_insert_eq.
Qed.

(** The book of a validated response is the [book_info] of a final payload
    the model returned: the loop passes it through. *)
Lemma structured_response_from_model gateway registry render retry fuel
  input sid ctx st0 res st' r :
  invoke_agent gateway registry render retry fuel input sid ctx st0
  = Some (res, st') ->
  structured_response res = Some r ->
  exists p n msgs,
    gateway n msgs = inr (FinalOutcome (PyDict p))
    /\ validate (PyDict p) = inr r
    /\ book_info r = as_structured (get p "book_info").
Proof.
  intros H Hr. unfold invoke_agent in H.
  destruct (model_call_result _ _ _ _ _ _ _ _ _ _ _ _ H)
    as [(r0 & payload & n & msgs & -> & G & V) | [k ->]];
    [|discriminate Hr].
  injection Hr as ->.
  destruct (validate_inr _ _ V) as (p & -> & _ & _ & B & _).
  exists p, n, msgs. auto.
Qed.

(** C3. A turn that ends [DONE] returns a [structured_response] that is the
    validated final payload of the model: the payload conforms to the
    response schema (the required [encouragement_response] is present and is
    text, every present optional field has its type) and so does the
    response; a turn that ends [FAILED] returns no [structured_response] but
    an error kind.  So a response, when there is one, is fully valid. *)
Theorem structured_response_valid_or_absent gateway registry render retry
  fuel input sid ctx st0 res st' :
  invoke_agent gateway registry render retry fuel input sid ctx st0
  = Some (res, st') ->
  (turn_status res = DONE ->
     exists r p,
       structured_response res = Some r /\ error res = None
       /\ (exists n msgs, gateway n msgs = inr (FinalOutcome (PyDict p)))
       /\ validate (PyDict p) = inr r
       /\ conforms ResponseSchema p
       /\ conforms ResponseSchema (asdict r))
  /\ (turn_status res = FAILED ->
        structured_response res = None /\ exists k, error res = Some k)
  /\ (forall r, structured_response res = Some r ->
        turn_status res = DONE /\ conforms ResponseSchema (asdict r)).
Proof.
  intros H. unfold invoke_agent in H.
  destruct (model_call_result _ _ _ _ _ _ _ _ _ _ _ _ H)
    as [(r & payload & n & msgs & -> & G & V) | [k ->]]; cbn.
  - destruct (validate_inr _ _ V) as (p & -> & C & _).
    split; [|split].
    + intros _. exists r, p.
      split; [reflexivity|]. split; [reflexivity|].
      split; [exists n, msgs; exact G|]. split; [exact V|].
      split; [exact C | apply conforms_asdict].
    + discriminate.
    + intros r' [= <-]. split; [reflexivity | apply conforms_asdict].
  - split; [|split].
    + discriminate.
    + intros _. eauto.
    + discriminate.
Qed.

Lemma structured_response_valid_or_absent_witness :
  exists res st',
    invoke_agent (Stub.tools_then (Stub.recommend "自控力")) agent_registry
      Stub.render 0 5 "查询我的借阅书籍" "1" (mkContext "1") ∅
    = Some (res, st')
    /\ turn_status res = DONE
    /\ exists r, structured_response res = Some r
                 /\ conforms ResponseSchema (asdict r).
Proof.
  do 2 eexists. split; [vm_compute; reflexivity|].
  split; [reflexivity|].
  pose proof (structured_response_valid_or_absent
                (Stub.tools_then (Stub.recommend "自控力")) agent_registry
                Stub.render 0 5 "查询我的借阅书籍" "1" (mkContext "1") ∅) as T.
  edestruct T as (D & _ & _); [vm_compute; reflexivity|].
  destruct (D eq_refl) as (r & p & E & _ & _ & _ & _ & C).
  exists r. split; [exact E | exact C].
Defined.

(** The turn of the agent under a limit of [REPAIR_LIMIT] is
    [invoke_agent]. *)
Lemma invoke_configured_REPAIR_LIMIT gateway registry render retry fuel
  input sid ctx st0 :
  invoke_configured gateway registry render retry (Some REPAIR_LIMIT) fuel
    input sid ctx st0
  = invoke_agent gateway registry render retry fuel input sid ctx st0.
Proof. reflexivity. Qed.




(** C8, as the code has it.  The [book_info] of a turn's response is the
    [book_info] of the final payload of the turn's last model call, passed
    through unchanged: the mapping as it stands, and [None] for a null or
    absent field; so are the other two fields.  Hence, when no final payload
    of the model names a borrowed title of the user, by the bare title or as
    title - author, neither does the response.  The loop excludes
    nothing. *)
Theorem recommended_book_passed_through gateway registry render retry fuel
  input sid ctx st0 res st' r :
  invoke_agent gateway registry render retry fuel input sid ctx st0
  = Some (res, st') ->
  structured_response res = Some r ->
  (exists p msgs,
      gateway (pred (calls st')) msgs = inr (FinalOutcome (PyDict p))
      /\ book_info r = match get p "book_info" with
                       | Some (PyDict d) => Some d
                       | _ => None
                       end
      /\ get p "encouragement_response"
         = Some (PyStr (encouragement_response r))
      /\ reason r = match get p "reason" with
                    | Some (PyStr s) => Some s
                    | _ => None
                    end)
  /\ ((forall n msgs p d,
         gateway n msgs = inr (FinalOutcome (PyDict p)) ->
         get p "book_info" = Some (PyDict d) ->
         ~ names_borrowed (user_id ctx) d) ->
      forall d, book_info r = Some d -> ~ names_borrowed (user_id ctx) d).
Proof.
  intros H Hr. unfold invoke_agent in H.
  destruct (model_call_last _ _ _ _ _ _ _ _ _ _ _ _ _ H Hr)
    as (payload & msgs & G & V).
  destruct (validate_inr _ _ V) as (p & -> & _ & E & B & Rs).
  split.
  - exists p, msgs. split; [exact G|]. split; [|split].
    + rewrite B. destruct (get p "book_info") as [[| | | |]|]; reflexivity.
    + exact E.
    + rewrite Rs. destruct (get p "reason") as [[| | | |]|]; reflexivity.
  - intros Hmodel d Hd. rewrite Hd in B.
    destruct (get p "book_info") as [[| | | |d']|] eqn:Eb; try discriminate B.
    injection B as ->. eapply Hmodel; eassumption.
Qed.

Lemma recommended_book_passed_through_witness :
  exists res st',
    invoke_agent (Stub.tools_then (Stub.recommend "自控力")) agent_registry
      Stub.render 0 5 "查询我的借阅书籍" "1" (mkContext "1") ∅
    = Some (res, st')
    /\ forall r,
         structured_response res = Some r ->
         book_info r = Some [("title", PyStr "自控力")]
         /\ forall d, book_info r = Some d -> ~ names_borrowed "1" d.
Proof.
  do 2 eexists. split; [vm_compute; reflexivity|].
  intros r Hr.
  pose proof (recommended_book_passed_through
                (Stub.tools_then (Stub.recommend "自控力")) agent_registry
                Stub.render 0 5 "查询我的借阅书籍" "1" (mkContext "1") ∅) as T.
  edestruct T as [(p & msgs & G & B & _) N];
    [vm_compute; reflexivity | exact Hr |].
  split.
  - cbn in G. injection G as <-. exact B.
  - apply N. intros n msgs' p' d G' B' (t & line & Ht & Hin & Hl).
    cbn [user_id] in Hin. rewrite borrowed_books_1 in Hin. cbn [default] in Hin.
    destruct n as [|n]; [discriminate G'|].
    cbn in G'. injection G' as <-. cbn in B'. injection B' as <-.
    cbn in Ht. injection Ht as <-.
    destruct Hin as [<- | [<- | []]]; destruct Hl as [Hl | [a Hl]];
      cbv in Hl; discriminate Hl.
Defined.

(** C8, as the claim states it, fails: a model that answers user "1" with a
    valid payload recommending 心理学与生活 - 理查德·格里格 ends the turn
    [DONE], and the recommended title is one of the two borrowed titles. *)
Lemma recommended_title_can_be_borrowed :
  exists res st' r d t,
    invoke_agent
      (Stub.tools_then (Stub.recommend "心理学与生活 - 理查德·格里格"))
      agent_registry Stub.render 0 5 "查询我的借阅书籍" "1" (mkContext "1") ∅
    = Some (res, st')
    /\ turn_status res = DONE
    /\ structured_response res = Some r
    /\ book_info r = Some d
    /\ get d "title" = Some (PyStr t)
    /\ In t (default [] (borrowed_books !! "1"))
    /\ In t (split_lines
               (get_book_list_by_userid (mkToolRuntime (mkContext "1") tt))).
Proof.
  do 5 eexists. split; [vm_compute; reflexivity|].
  split; [reflexivity|]. split; [reflexivity|]. split; [reflexivity|].
  split; [reflexivity|].
  split.
  - rewrite borrowed_books_1. left. reflexivity.
  - unfold get_book_list_by_userid. cbn [context user_id].
    rewrite borrowed_books_1. left. reflexivity.
Qed.

(** C5. In every turn of the agent, each invocation of
    [get_book_list_by_userid], the tool that declares the context
    dependency, is given the caller's Context as it was supplied (so the
    same [user_id]), and each invocation of [get_book_list], which declares
    none, is given no Context.  The Context is not put into the messages:
    with the handlers already applied to the caller's Context, the turn
    yields the same result and the same session store whatever Context
    stands in the caller's place, so the Context reaches the turn through
    the declaring handlers only. *)
Theorem context_delivered_to_declaring_tools_only gateway render retry fuel
  input sid ctx st0 res st' :
  invoke_agent gateway agent_registry render retry fuel input sid ctx st0
  = Some (res, st') ->
  (forall inv, In inv (log st') ->
     (inv_tool inv = "get_book_list_by_userid" -> inv_context inv = Some ctx)
     /\ (inv_tool inv = "get_book_list" -> inv_context inv = None))
  /\ (forall args,
        fst (invoke agent_registry "get_book_list_by_userid" args ctx)
        = Success (PyStr (get_book_list_by_userid (mkToolRuntime ctx tt))))
  /\ (forall ctx', exists st'',
        invoke_agent gateway (bind_context ctx agent_registry) render retry
          fuel input sid ctx' st0 = Some (res, st'')
        /\ store st'' = store st').
Proof.
  intros H. destruct agent_registry_lookup as [L1 L2].
  split; [|split].
  - intros inv Hin. unfold invoke_agent in H.
    eapply model_call_log in H; [|constructor].
    rewrite List.Forall_forall in H. specialize (H inv Hin).
    split; intros E; rewrite E in H.
    + rewrite L2 in H. exact H.
    + rewrite L1 in H. exact H.
  - intros args. unfold invoke, resolve. rewrite L2. reflexivity.
  - intros ctx'. unfold invoke_agent in H |- *.
    pose proof (model_call_bind_context gateway agent_registry render retry
                  fuel sid ctx ctx' retry REPAIR_LIMIT
                  (loading input sid st0) (loading input sid st0)
                  (conj eq_refl (conj eq_refl eq_refl))) as B.
    rewrite H in B.
    destruct (model_call gateway (bind_context ctx agent_registry) render
                retry fuel sid ctx' retry REPAIR_LIMIT (loading input sid st0))
      as [[r1 s1]|]; [|contradiction].
    destruct B as (-> & S & _). exists s1. split; [reflexivity | exact S].
Qed.

Lemma context_delivered_to_declaring_tools_only_witness :
  exists res st',
    invoke_agent (Stub.tools_then (Stub.recommend "自控力")) agent_registry
      Stub.render 0 5 "查询我的借阅书籍" "1" (mkContext "1") ∅
    = Some (res, st')
    /\ log st'
       = [ mkInvocation "get_book_list_by_userid" [] (Some (mkContext "1"));
           mkInvocation "get_book_list" [] None ]
    /\ forall inv, In inv (log st') ->
         (inv_tool inv = "get_book_list_by_userid" ->
          inv_context inv = Some (mkContext "1"))
         /\ (inv_tool inv = "get_book_list" -> inv_context inv = None).
Proof.
  do 2 eexists. split; [vm_compute; reflexivity|].
  split; [reflexivity|].
  pose proof (context_delivered_to_declaring_tools_only
                (Stub.tools_then (Stub.recommend "自控力"))
                Stub.render 0 5 "查询我的借阅书籍" "1" (mkContext "1") ∅) as T.
  edestruct T as (D & _ & _); [vm_compute; reflexivity|].
  exact D.
Defined.

(** * Further properties of the tools *)

(** ** The filter of [get_book_list] on an arbitrary catalog *)

Lemma book_available_dict d v :
  get d "available" = Some v -> book_available (PyDict d) = inr (truthy v).
Proof.
  intros H. unfold book_available, subscript, getitem. rewrite H. reflexivity.
Qed.

Lemma book_available_inl x e :
  book_available x = inl e ->
  (exists d, x = PyDict d /\ get d "available" = None
             /\ e = KeyError "available")
  \/ ((forall d, x <> PyDict d) /\ exists msg, e = TypeError msg).
Proof.
  unfold book_available, subscript, getitem.
  destruct x as [| b | s | l | d]; cbn;
    try (intros [= <-]; right; split; [discriminate | eauto]).
  destruct (get d "available") eqn:G; cbn; [discriminate|].
  intros [= <-]. left. eauto.
Qed.

(** X1. On any catalog whose entries are dicts with an [available] key, the
    comprehension of [get_book_list] does not raise and keeps, in catalog
    order, exactly the entries whose [available] value is truthy: the test
    is Python's truth value, not identity with [True]. *)
Theorem comprehension_keeps_truthy (xs : list pyval) :
  (forall x, In x xs ->
     exists d v, x = PyDict d /\ get d "available" = Some v) ->
  comprehension_if book_available xs
  = inr (List.filter
           (fun x => match x with
                     | PyDict d => match get d "available" with
                                   | Some v => truthy v
                                   | None => false
                                   end
                     | _ => false
                     end) xs).
Proof.
  induction xs as [|x xs IH]; intros H; [reflexivity|].
  destruct (H x (or_introl eq_refl)) as (d & v & -> & G).
  cbn [comprehension_if List.filter].
  rewrite (book_available_dict d v G), G. cbn [bind].
  rewrite IH by (intros y Hy; apply H; right; exact Hy).
  cbn [bind ret]. destruct (truthy v); reflexivity.
Qed.

Lemma comprehension_keeps_truthy_witness :
  comprehension_if book_available
    [ PyDict [("title", PyStr "a"); ("available", PyStr "yes")];
      PyDict [("title", PyStr "b"); ("available", PyNone)];
      PyDict [("available", PyBool true)] ]
  = inr [ PyDict [("title", PyStr "a"); ("available", PyStr "yes")];
          PyDict [("available", PyBool true)] ].
Proof.
  apply (comprehension_keeps_truthy
           [ PyDict [("title", PyStr "a"); ("available", PyStr "yes")];
             PyDict [("title", PyStr "b"); ("available", PyNone)];
             PyDict [("available", PyBool true)] ]).
  intros x [<- | [<- | [<- | []]]]; do 2 eexists; split; reflexivity.
Defined.

(** X2. When the entries before some entry pass the test and that entry is
    a dict without an [available] key, the comprehension of [get_book_list]
    raises [KeyError('available')]: one such entry fails the whole call,
    whatever follows it, and no partial list is returned. *)
Theorem comprehension_missing_key (pre post : list pyval) (d : pydict) :
  (forall y, In y pre -> exists b, book_available y = inr b) ->
  get d "available" = None ->
  comprehension_if book_available (pre ++ PyDict d :: post)
  = inl (KeyError "available").
Proof.
  intros Hpre Hd. induction pre as [|y pre IH]; cbn [app comprehension_if].
  - unfold book_available at 1, subscript, getitem. rewrite Hd. reflexivity.
  - destruct (Hpre y (or_introl eq_refl)) as [b ->]. cbn [bind].
    rewrite IH by (intros z Hz; apply Hpre; right; exact Hz).
    reflexivity.
Qed.

Lemma comprehension_missing_key_witness :
  comprehension_if book_available
    ([book_psychology_and_life] ++ PyDict [("title", PyStr "无标记")]
       :: [book_flow])
  = inl (KeyError "available").
Proof.
  apply (comprehension_missing_key [book_psychology_and_life] [book_flow]
           [("title", PyStr "无标记")]).
  - intros y [<- | []]. eexists. reflexivity.
  - reflexivity.
Defined.

(** X3. Whenever the comprehension of [get_book_list] returns a list, every
    entry of the catalog passed the test without raising, every kept entry
    is a catalog entry that tested true, the list is no longer than the
    catalog, and filtering it once more returns it unchanged. *)
Theorem comprehension_result (xs kept : list pyval) :
  comprehension_if book_available xs = inr kept ->
  (forall x, In x xs -> exists b, book_available x = inr b)
  /\ (forall x, In x kept <-> In x xs /\ book_available x = inr true)
  /\ length kept <= length xs
  /\ comprehension_if book_available kept = inr kept.
Proof.
  revert kept. induction xs as [|x xs IH]; intros kept H.
  - injection H as <-. cbn. repeat split; try tauto; try lia.
  - cbn [comprehension_if] in H.
    destruct (book_available x) as [e|b] eqn:A; [discriminate H|].
    cbn [bind] in H.
    destruct (comprehension_if book_available xs) as [e|rest] eqn:C;
      [discriminate H|].
    cbn [bind ret] in H. injection H as <-.
    destruct (IH rest eq_refl) as (I1 & I2 & I3 & I4).
    split; [|split; [|split]].
    + intros y [<- | Hy]; eauto.
    + intros y. destruct b; cbn [In]; rewrite ?I2; split.
      * intros [<- | [Hy Ha]]; auto.
      * intros [[<- | Hy] Ha]; auto.
      * intros [Hy Ha]; auto.
      * intros [[<- | Hy] Ha]; [congruence | auto].
    + destruct b; cbn [length]; lia.
    + destruct b; [|exact I4].
      cbn [comprehension_if]. rewrite A, I4. reflexivity.
Qed.

Lemma comprehension_result_witness :
  length [book_psychology_and_life; book_influence; book_willpower; book_flow]
  <= length books
  /\ comprehension_if book_available
       [book_psychology_and_life; book_influence; book_willpower; book_flow]
     = inr [book_psychology_and_life; book_influence; book_willpower;
            book_flow].
Proof.
  destruct (comprehension_result books
              [book_psychology_and_life; book_influence; book_willpower;
               book_flow] eq_refl) as (_ & _ & L & I).
  split; [exact L | exact I].
Defined.

(** ** The text of [get_book_list_by_userid] *)

Lemma borrowed_books_2 :
  borrowed_books !! "2" = Some ["思考，快与慢 - 丹尼尔·卡尼曼"].
Proof. unfold borrowed_books. apply lookup_insert_eq. Qed.

Lemma borrowed_books_cases (uid : string) :
  (uid = "1"
   /\ borrowed_books !! uid
      = Some ["心理学与生活 - 理查德·格里格"; "影响力 - 罗伯特·西奥迪尼"])
  \/ (uid = "2"
      /\ borrowed_books !! uid = Some ["思考，快与慢 - 丹尼尔·卡尼曼"])
  \/ (uid <> "1" /\ uid <> "2" /\ borrowed_books !! uid = None).
Proof.
  destruct (decide (uid = "1")) as [-> | H1];
    [left; split; [reflexivity | apply borrowed_books_1]|].
  destruct (decide (uid = "2")) as [-> | H2];
    [right; left; split; [reflexivity | apply borrowed_books_2]|].
  right; right. auto using borrowed_books_other.
Qed.

Lemma append_cons (c : ascii) (s t : string) :
  String c s ++ t = String c (s ++ t).
Proof. reflexivity. Qed.

Lemma append_nil_right (s : string) : s ++ "" = s.
Proof.
  induction s as [|c s IH]; [reflexivity|].
  rewrite append_cons, IH. reflexivity.
Qed.

Lemma append_assoc (s1 s2 s3 : string) : (s1 ++ s2) ++ s3 = s1 ++ (s2 ++ s3).
Proof.
  induction s1 as [|c s1 IH]; [reflexivity|].
  rewrite !append_cons, IH. reflexivity.
Qed.

(** A piece without line feed in front of the rest is read into the
    current line. *)
Lemma split_lines_aux_app (p cur rest : string) :
  ~ In (ascii_of_nat 10) (list_ascii_of_string p) ->
  split_lines_aux cur (p ++ rest) = split_lines_aux (cur ++ p) rest.
Proof.
  revert cur. induction p as [|c p IH]; intros cur H.
  - rewrite append_nil_right. reflexivity.
  - rewrite append_cons. cbn [split_lines_aux].
    destruct (Ascii.eqb c (ascii_of_nat 10)) eqn:E.
    + apply Ascii.eqb_eq in E. exfalso. apply H. left. exact E.
    + rewrite IH by (intros Hp; apply H; right; exact Hp).
      rewrite append_assoc. reflexivity.
Qed.

Lemma split_lines_aux_join (cur p : string) (ps : list string) :
  Forall (fun q => ~ In (ascii_of_nat 10) (list_ascii_of_string q)) (p :: ps) ->
  split_lines_aux cur (join LF (p :: ps)) = (cur ++ p) :: ps.
Proof.
  revert cur p. induction ps as [|q qs IH]; intros cur p H.
  - cbn [join]. rewrite <- (append_nil_right p) at 1.
    rewrite split_lines_aux_app by (inversion H; assumption). reflexivity.
  - change (join LF (p :: q :: qs)) with (p ++ LF ++ join LF (q :: qs)).
    inversion H as [|? ? Hp Hrest]; subst.
    rewrite split_lines_aux_app by exact Hp.
    unfold LF at 1. rewrite append_cons.
    change ("" ++ join LF (q :: qs)) with (join LF (q :: qs)).
    cbn [split_lines_aux]. rewrite Ascii.eqb_refl.
    rewrite (IH "" q Hrest). reflexivity.
Qed.

(** X4. The text format of [get_book_list_by_userid] loses nothing: joining
    a non-empty list of titles, none of which holds a line feed, with line
    feeds and cutting the text at line feeds gives the list back.  The
    empty list is the one exception: it joins to the empty text, which reads
    back as one empty line. *)
Theorem join_split_round_trip (titles : list string) :
  titles <> [] ->
  Forall (fun t => ~ In (ascii_of_nat 10) (list_ascii_of_string t)) titles ->
  split_lines (join LF titles) = titles
  /\ split_lines (join LF []) = [""].
Proof.
  intros Hne H. split; [|reflexivity].
  destruct titles as [|p ps]; [contradiction|].
  unfold split_lines. rewrite split_lines_aux_join by exact H. reflexivity.
Qed.

Lemma join_split_round_trip_witness :
  split_lines (join LF ["a b"; ""; "c"]) = ["a b"; ""; "c"]
  /\ split_lines (join LF []) = [""].
Proof.
  apply (join_split_round_trip ["a b"; ""; "c"]); [discriminate|].
  repeat constructor; cbn; intuition discriminate.
Defined.

(** The lines of the text are the looked-up titles, or the fallback. *)
Lemma lines_of_user (R : Type) (runtime : ToolRuntime Context R) :
  split_lines (get_book_list_by_userid runtime)
  = default [no_record] (borrowed_books !! user_id (context runtime)).
Proof.
  unfold get_book_list_by_userid.
  destruct (borrowed_books_cases (user_id (context runtime)))
    as [[_ ->] | [[_ ->] | (_ & _ & ->)]]; reflexivity.
Qed.

(** X5. The text of [get_book_list_by_userid] is decided by the [user_id]
    alone and is one of three: the two titles of user "1" on two lines, the
    one title of user "2", or the fallback line for every other id. *)
Theorem get_book_list_by_userid_table (R : Type)
  (runtime : ToolRuntime Context R) :
  get_book_list_by_userid runtime
  = if String.eqb (user_id (context runtime)) "1"
    then "心理学与生活 - 理查德·格里格" ++ LF ++ "影响力 - 罗伯特·西奥迪尼"
    else if String.eqb (user_id (context runtime)) "2"
         then "思考，快与慢 - 丹尼尔·卡尼曼"
         else "该用户暂无借阅记录".
Proof.
  unfold get_book_list_by_userid.
  destruct (borrowed_books_cases (user_id (context runtime)))
    as [[E ->] | [[E ->] | (H1 & H2 & ->)]].
  - rewrite E. reflexivity.
  - rewrite E. reflexivity.
  - apply String.eqb_neq in H1, H2. rewrite H1, H2. reflexivity.
Qed.

(** X6. Cutting the text of [get_book_list_by_userid] at line feeds gives
    back exactly the list that the lookup chose, the user's titles or the
    one-element fallback: as many lines as titles, two for user "1" and one
    for everybody else, and never an empty line or an empty text. *)
Theorem get_book_list_by_userid_lines (R : Type)
  (runtime : ToolRuntime Context R) :
  let lines := split_lines (get_book_list_by_userid runtime) in
  lines = default [no_record] (borrowed_books !! user_id (context runtime))
  /\ length lines = (if String.eqb (user_id (context runtime)) "1" then 2 else 1)
  /\ ~ In "" lines
  /\ get_book_list_by_userid runtime <> "".
Proof.
  cbv zeta. rewrite lines_of_user. unfold get_book_list_by_userid.
  destruct (borrowed_books_cases (user_id (context runtime)))
    as [[E ->] | [[E ->] | (H1 & H2 & ->)]];
    try rewrite E; try (apply String.eqb_neq in H1; rewrite H1);
    (split; [reflexivity|]); (split; [reflexivity|]);
    (split; [cbn; intuition discriminate | discriminate]).
Qed.

(** X7. The fallback line 该用户暂无借阅记录 is in the text exactly when the
    user has no record, that is for every [user_id] but "1" and "2"; a user
    with a record never gets it, so the caller can tell the two apart. *)
Theorem fallback_line_iff_no_record (R : Type)
  (runtime : ToolRuntime Context R) :
  In "该用户暂无借阅记录" (split_lines (get_book_list_by_userid runtime))
  <-> (user_id (context runtime) <> "1" /\ user_id (context runtime) <> "2").
Proof.
  rewrite lines_of_user.
  destruct (borrowed_books_cases (user_id (context runtime)))
    as [[E ->] | [[E ->] | (H1 & H2 & ->)]]; cbn [default].
  - split; [|intros [H _]; contradiction].
    cbn. intros [H | [H | []]]; discriminate H.
  - split; [|intros [_ H]; contradiction].
    cbn. intros [H | []]; discriminate H.
  - split; [auto | intros _; left; reflexivity].
Qed.

(** X8. Every line of the text other than the fallback names a book of the
    catalog of [get_book_list]: it is that book's title, " - ", and its
    author. *)
Theorem borrowed_line_names_catalog_book (R : Type)
  (runtime : ToolRuntime Context R) (line : string) :
  In line (split_lines (get_book_list_by_userid runtime)) ->
  line <> "该用户暂无借阅记录" ->
  exists b t a,
    In b books
    /\ subscript b "title" = inr (PyStr t)
    /\ subscript b "author" = inr (PyStr a)
    /\ line = t ++ " - " ++ a.
Proof.
  rewrite lines_of_user.
  destruct (borrowed_books_cases (user_id (context runtime)))
    as [[E ->] | [[E ->] | (H1 & H2 & ->)]]; cbn [default];
    intros Hin Hne.
  - destruct Hin as [<- | [<- | []]].
    + exists book_psychology_and_life. do 2 eexists.
      split; [cbn; auto|]. repeat split.
    + exists book_influence. do 2 eexists.
      split; [cbn; auto|]. repeat split.
  - destruct Hin as [<- | []].
    exists book_thinking_fast_and_slow. do 2 eexists.
    split; [cbn; auto|]. repeat split.
  - destruct Hin as [<- | []]. contradiction Hne. reflexivity.
Qed.

Lemma borrowed_line_names_catalog_book_witness :
  exists b t a,
    In b books
    /\ subscript b "title" = inr (PyStr t)
    /\ subscript b "author" = inr (PyStr a)
    /\ "思考，快与慢 - 丹尼尔·卡尼曼" = t ++ " - " ++ a.
Proof.
  apply (borrowed_line_names_catalog_book unit
           (mkToolRuntime (mkContext "2") tt)).
  - rewrite lines_of_user. cbn [context user_id].
    rewrite borrowed_books_2. left. reflexivity.
  - discriminate.
Defined.

(** ** The two tools together *)

(** X9. Whoever asks, [get_book_list] offers a book that is not among the
    titles [get_book_list_by_userid] returns for that user: 自控力 and 心流
    are both offered and appear in no user's text, neither as a title alone
    nor as title, " - ", author. *)
Theorem unborrowed_book_always_offered (R : Type)
  (runtime : ToolRuntime Context R) (u : unit) :
  exists kept,
    get_book_list u = inr (PyDict [("books", PyList kept)])
    /\ forall b, b = book_willpower \/ b = book_flow ->
         In b kept
         /\ exists t a,
              subscript b "title" = inr (PyStr t)
              /\ subscript b "author" = inr (PyStr a)
              /\ ~ In (t ++ " - " ++ a)
                     (split_lines (get_book_list_by_userid runtime))
              /\ ~ In t (split_lines (get_book_list_by_userid runtime)).
Proof.
  eexists. split; [apply get_book_list_value|].
  rewrite lines_of_user.
  intros b [-> | ->]; (split; [cbn; auto|]); do 2 eexists;
    (split; [reflexivity|]); (split; [reflexivity|]);
    destruct (borrowed_books_cases (user_id (context runtime)))
      as [[E ->] | [[E ->] | (H1 & H2 & ->)]]; cbn [default];
    split; vm_compute; intuition discriminate.
Qed.

(** X10. [get_book_list] takes no account of who asks: it offers a book
    that the asking user has already borrowed exactly when that user is "1",
    whose two borrowed books are both still marked available; the one book
    of user "2" is the one that is not offered. *)
Theorem offered_book_already_borrowed_iff_user_1 (R : Type)
  (runtime : ToolRuntime Context R) (u : unit) (kept : list pyval) :
  get_book_list u = inr (PyDict [("books", PyList kept)]) ->
  (exists b t a,
      In b kept
      /\ subscript b "title" = inr (PyStr t)
      /\ subscript b "author" = inr (PyStr a)
      /\ In (t ++ " - " ++ a) (split_lines (get_book_list_by_userid runtime)))
  <-> user_id (context runtime) = "1".
Proof.
  rewrite get_book_list_value. intros [= <-]. rewrite lines_of_user.
  destruct (borrowed_books_cases (user_id (context runtime)))
    as [[E ->] | [[E ->] | (H1 & H2 & ->)]]; cbn [default].
  - split; [intros _; exact E | intros _].
    exists book_psychology_and_life. do 2 eexists.
    split; [cbn; auto|]. split; [reflexivity|]. split; [reflexivity|].
    left. reflexivity.
  - split; [|intros H; rewrite E in H; discriminate H].
    intros (b & t & a & Hb & Ht & Ha & Hin). exfalso.
    destruct Hb as [<- | [<- | [<- | [<- | []]]]];
      injection Ht as <-; injection Ha as <-;
      vm_compute in Hin; intuition discriminate.
  - split; [|intros H; contradiction].
    intros (b & t & a & Hb & Ht & Ha & Hin). exfalso.
    destruct Hb as [<- | [<- | [<- | [<- | []]]]];
      injection Ht as <-; injection Ha as <-;
      vm_compute in Hin; intuition discriminate.
Qed.

Lemma offered_book_already_borrowed_iff_user_1_witness :
  exists b t a,
    In b [book_psychology_and_life; book_influence; book_willpower; book_flow]
    /\ subscript b "title" = inr (PyStr t)
    /\ subscript b "author" = inr (PyStr a)
    /\ In (t ++ " - " ++ a)
         (split_lines
            (get_book_list_by_userid (mkToolRuntime (mkContext "1") tt))).
Proof.
  apply (offered_book_already_borrowed_iff_user_1 unit
           (mkToolRuntime (mkContext "1") tt) tt
           [book_psychology_and_life; book_influence; book_willpower;
            book_flow]); reflexivity.
Defined.
